(** * src/utils/logger.ts: logger construction and Elasticsearch logging setup

    A shallow embedding of the two exported functions of [logger.ts],
    [winstonLogger] and [checkElasticLoggingSetup], and the properties of
    them that the specification states.

    The two third-party collaborators are not part of the repository:
    the Elasticsearch client is an interface ([EsBackend]) over which every
    general theorem quantifies, and the winston façade is reduced to the
    option objects the source hands to it. *)

From Stdlib Require Import ZArith String List DecimalString DecimalZ DecimalPos.
From Stdlib Require Import Lia Bool.
From stdpp Require Import gmap strings.
Import ListNotations.
Local Open Scope string_scope.
Local Open Scope Z_scope.
Local Open Scope list_scope.
Set Warnings "-register-all".

(** ** JavaScript values used by the source *)

Module Js.

(** A thrown value. The client library raises [ResponseError] for an HTTP
    error status and transport-level errors otherwise. *)
Inductive error : Type :=
| ResponseError (statusCode : Z) (type : string)
| TransportError (name : string).

(** Outcome of evaluating an expression or awaiting a promise. *)
Inductive result (A : Type) : Type :=
| Ok (a : A)
| Throw (e : error).
Arguments Ok {A} a.
Arguments Throw {A} e.

(** A string-typed argument as a JavaScript caller can pass it:
    [None] is [undefined]. *)
Definition jsstring : Type := option string.

(** Truthiness of a string-or-undefined value. *)
Definition truthy (v : jsstring) : bool :=
  match v with
  | None => false
  | Some s => negb (String.eqb s "")
  end.

(** [v || dflt] with a string literal on the right. *)
Definition or_else (v : jsstring) (dflt : string) : string :=
  match v with
  | Some s => if truthy v then s else dflt
  | None => dflt
  end.

(** [String(n)] and [`${n}`] for an integral number. *)
Definition String_ (n : Z) : string := NilZero.string_of_int (Z.to_int n).

Fixpoint repeat_string (n : nat) (s : string) : string :=
  match n with
  | O => ""
  | S k => s +:+ repeat_string k s
  end.

(** [s.padStart(targetLength, padString)]. *)
Definition padStart (targetLength : nat) (padString : string) (s : string) : string :=
  let len := String.length s in
  if (targetLength <=? len)%nat then s
  else if String.eqb padString "" then s
  else
    let fillLen := (targetLength - len)%nat in
    String.substring 0 fillLen (repeat_string fillLen padString) +:+ s.

(** The local-time fields of a [Date]. [getMonth] is zero-based. *)
Record Date : Type := mkDate {
  getFullYear : Z;
  getMonth : Z;
  getDate : Z;
  getHours : Z;
  getMinutes : Z;
  getSeconds : Z;
  getMilliseconds : Z
}.

(** Object literals passed to the client as request bodies. *)
Inductive json : Type :=
| JString (s : string)
| JNumber (n : Z)
| JArray (items : list json)
| JObject (fields : list (string * json)).

Fixpoint assoc {A : Type} (k : string) (l : list (string * A)) : option A :=
  match l with
  | [] => None
  | (k', v) :: tl => if String.eqb k k' then Some v else assoc k tl
  end.

Definition field (k : string) (j : json) : option json :=
  match j with
  | JObject fs => assoc k fs
  | _ => None
  end.

Definition keys (j : json) : list string :=
  match j with
  | JObject fs => map fst fs
  | _ => []
  end.

(** [j.k1.k2...kn] *)
Fixpoint at_path (path : list string) (j : json) : option json :=
  match path with
  | [] => Some j
  | k :: rest =>
      match field k j with
      | Some j' => at_path rest j'
      | None => None
      end
  end.

End Js.
Import Js.

(** ** Index suffix (logger.ts lines 16-20 and 153-157) *)

(** [indexSuffix] as [winstonLogger] computes it from [today]. *)
Definition indexSuffix (today : Date) : string :=
  let year := getFullYear today in
  let month := padStart 2 "0" (String_ (getMonth today + 1)) in
  let day := padStart 2 "0" (String_ (getDate today)) in
  String_ year +:+ "." +:+ month +:+ "." +:+ day.

(** [indexName] as [checkElasticLoggingSetup] computes it from [today]. *)
Definition indexName (today : Date) : string :=
  let year := getFullYear today in
  let month := padStart 2 "0" (String_ (getMonth today + 1)) in
  let day := padStart 2 "0" (String_ (getDate today)) in
  "logs-" +:+ String_ year +:+ "." +:+ month +:+ "." +:+ day.

(** The two decimal digits of [n], most significant first: what
    "zero-padded" asks of a month or a day. *)
Definition digit (n : Z) : Ascii.ascii := Ascii.ascii_of_nat (48 + Z.to_nat n).

Definition two_digits (n : Z) : string :=
  String (digit (n / 10)) (String (digit (n mod 10)) "").

(** ** The Elasticsearch client (@elastic/elasticsearch), as an interface *)

Module Elastic.

(** [new Client({ node })] *)
Record Client : Type := mkClient { node : string }.

(** The part of the cluster-health response the source reads. *)
Record HealthResponse : Type := mkHealth { status : string }.

(** The client methods the source calls, over a backend world [W]: each
    call is a round trip that settles with a value or rejects, and may
    change the world. The request objects of the source
    ([{ name }], [{ name, body }], [{ index }]) are passed by position.
    [new_Client] is the constructor (it can reject an address) and
    [new_Date] the local clock the world carries. *)
Class EsBackend (W : Type) : Type := {
  new_Client : string -> result Client;
  cluster_health : Client -> W -> result HealthResponse * W;
  ilm_getLifecycle : Client -> string -> W -> result json * W;
  ilm_putLifecycle : Client -> string -> json -> W -> result unit * W;
  indices_existsIndexTemplate : Client -> string -> W -> result bool * W;
  indices_putIndexTemplate : Client -> string -> json -> W -> result unit * W;
  indices_exists : Client -> string -> W -> result bool * W;
  indices_create : Client -> string -> W -> result unit * W;
  new_Date : W -> Date
}.

End Elastic.
Import Elastic.

(** ** The winston façade, as the option objects the source builds *)

Module Winston.

Inductive Format : Type :=
| timestamp
| json_format
| colorize
| simple
| combine (fs : list Format).

(** Options of [new ElasticsearchTransport({...})]. *)
Record ElasticsearchTransportOptions : Type := mkEsTransportOptions {
  es_level : string;
  client : Client;
  indexPrefix : string;
  indexSuffixPattern : string;
  source : string;
  bufferLimit : Z;
  flushInterval : Z
}.

(** Options of [new winston.transports.Console({...})]. *)
Record ConsoleTransportOptions : Type := mkConsoleOptions {
  console_format : Format
}.

Inductive Transport : Type :=
| Console (o : ConsoleTransportOptions)
| ElasticsearchTransport (o : ElasticsearchTransportOptions).

(** Options of [winston.createLogger({...})]. *)
Record LoggerOptions : Type := mkLoggerOptions {
  level : jsstring;
  defaultMeta : list (string * string);
  format : Format;
  transports : list Transport
}.

(** The handle [winston.createLogger] returns, as the options it was built
    from. The level the handle ends up with is [logger_level] below, which
    is not always the [level] option. *)
Record Logger : Type := createLogger { options : LoggerOptions }.

(** The level of a handle. winston is not in the repository; its
    [createLogger] takes the option through a JavaScript default parameter,
    [level = 'info'], and a default parameter replaces [undefined] and
    nothing else: an undefined [level] becomes ["info"], an empty string
    stays the empty string. *)
Definition logger_level (lg : Logger) : string :=
  match level (options lg) with
  | None => "info"
  | Some l => l
  end.

(** A record as it reaches a sink. *)
Record LogRecord : Type := mkLogRecord {
  rec_level : string;
  rec_message : string;
  rec_meta : list (string * string)
}.

(** The minimum level a sink was given itself, if any. *)
Definition own_level (t : Transport) : option string :=
  match t with
  | Console _ => None
  | ElasticsearchTransport o => Some (es_level o)
  end.

Section Facade.

(** The façade's severity table: a smaller rank is more severe. *)
Variable severity : string -> option nat.

(** Modelled from the spec: the level gate of the log-emission façade
    (winston itself is not in the repository). "Level-gated structured
    record emission": a sink passes a record when the record's level is not
    below the sink's minimum level, which is the sink's own level when it
    was given one and the logger's otherwise. *)
Definition sink_level (o : LoggerOptions) (t : Transport) : jsstring :=
  match own_level t with
  | Some l => Some l
  | None => level o
  end.

(** Modelled from the spec: "suppresses records below [minLevel]". A record
    passes a minimum level when both levels are in the table and the
    record's is at least as severe; the spec says nothing of levels outside
    the table or of a sink with no minimum, and nothing passes here then. *)
Definition passes (minLevel : jsstring) (recLevel : string) : bool :=
  match minLevel with
  | Some m =>
      match severity m, severity recLevel with
      | Some rm, Some rr => (rr <=? rm)%nat
      | _, _ => false
      end
  | None => false
  end.

(** Modelled from the spec: what [logger.log(lvl, msg)] hands to the sinks.
    "Every emitted record carries ... a default field": the record is the
    level, the message and the logger's [defaultMeta], delivered to every
    sink whose gate it passes. *)
Definition deliver (lg : Logger) (lvl msg : string) : list (Transport * LogRecord) :=
  let o := options lg in
  map (fun t => (t, mkLogRecord lvl msg (defaultMeta o)))
      (List.filter (fun t => passes (sink_level o t) lvl) (transports o)).

End Facade.

End Winston.
Import Winston.

(** ** Effects: backend round trips, the clock, the console *)

(** What a run does, in order. A backend call is recorded with the way it
    settled. *)
Inductive Event : Type :=
| EvNewClient (node : string) (r : result Client)
| EvClusterHealth (r : result HealthResponse)
| EvGetLifecycle (name : string) (r : result json)
| EvPutLifecycle (name : string) (body : json) (r : result unit)
| EvExistsIndexTemplate (name : string) (r : result bool)
| EvPutIndexTemplate (name : string) (body : json) (r : result unit)
| EvIndicesExists (index : string) (r : result bool)
| EvIndicesCreate (index : string) (r : result unit)
| EvNewDate (d : Date)
| EvConsoleLog (msg : string)
| EvConsoleError (msg : string) (e : error)
| EvLoggerLog (lg : Logger) (lvl msg : string).

(** The calls that create a policy, a template or an index. *)
Definition is_create (ev : Event) : bool :=
  match ev with
  | EvPutLifecycle _ _ _ | EvPutIndexTemplate _ _ _ | EvIndicesCreate _ _ => true
  | _ => false
  end.

(** The calls that reach the backend at all. *)
Definition is_backend_call (ev : Event) : bool :=
  match ev with
  | EvClusterHealth _ | EvGetLifecycle _ _ | EvPutLifecycle _ _ _
  | EvExistsIndexTemplate _ _ | EvPutIndexTemplate _ _ _
  | EvIndicesExists _ _ | EvIndicesCreate _ _ => true
  | _ => false
  end.

(** A backend call that rejected, or a constructor that threw. *)
Definition failed (ev : Event) : option error :=
  match ev with
  | EvNewClient _ (Throw e) | EvClusterHealth (Throw e)
  | EvGetLifecycle _ (Throw e) | EvPutLifecycle _ _ (Throw e)
  | EvExistsIndexTemplate _ (Throw e) | EvPutIndexTemplate _ _ (Throw e)
  | EvIndicesExists _ (Throw e) | EvIndicesCreate _ (Throw e) => Some e
  | _ => None
  end.

(** A computation: from a backend world and the events so far to an
    outcome, the world after and the events after. *)
Definition M (W A : Type) : Type := W -> list Event -> result A * W * list Event.

#[global] Instance M_ret {W} : MRet (M W) :=
  fun A a w tr => (Ok a, w, tr).

#[global] Instance M_bind {W} : MBind (M W) :=
  fun A B k m w tr =>
    match m w tr with
    | (Ok a, w', tr') => k a w' tr'
    | (Throw e, w', tr') => (Throw e, w', tr')
    end.

(** [try { body } catch (error) { handler }], and [promise.catch(handler)]
    under [await]. *)
Definition try_catch {W A} (body : M W A) (handler : error -> M W A) : M W A :=
  fun w tr =>
    match body w tr with
    | (Ok a, w', tr') => (Ok a, w', tr')
    | (Throw e, w', tr') => handler e w' tr'
    end.

(** One awaited round trip, recorded with its outcome. *)
Definition await {W A} (call : W -> result A * W) (ev : result A -> Event) : M W A :=
  fun w tr => let '(r, w') := call w in (r, w', tr ++ [ev r]).

Definition emit {W} (ev : Event) : M W unit :=
  fun w tr => (Ok tt, w, tr ++ [ev]).

Definition console_log {W} (msg : string) : M W unit := emit (EvConsoleLog msg).

Definition console_error {W} (msg : string) (e : error) : M W unit :=
  emit (EvConsoleError msg e).

(** [logger.info(msg)] *)
Definition logger_info {W} (lg : Logger) (msg : string) : M W unit :=
  emit (EvLoggerLog lg "info" msg).

(** ** logger.ts *)

(** The [body] of the [putLifecycle] request (lines 79-114). *)
Definition logs_policy_body : json :=
  JObject [
    ("policy", JObject [
      ("phases", JObject [
        ("hot", JObject [
          ("min_age", JString "0ms");
          ("actions", JObject [
            ("rollover", JObject [
              ("max_age", JString "7d");
              ("max_size", JString "5gb")])])]);
        ("warm", JObject [
          ("min_age", JString "7d");
          ("actions", JObject [
            ("shrink", JObject [("number_of_shards", JNumber 1)]);
            ("forcemerge", JObject [("max_num_segments", JNumber 1)])])]);
        ("cold", JObject [
          ("min_age", JString "30d");
          ("actions", JObject [])]);
        ("delete", JObject [
          ("min_age", JString "90d");
          ("actions", JObject [("delete", JObject [])])])])])].

(** The [body] of the [putIndexTemplate] request (lines 130-147). *)
Definition logs_template_body : json :=
  JObject [
    ("index_patterns", JArray [JString "logs-*"]);
    ("template", JObject [
      ("settings", JObject [
        ("number_of_shards", JNumber 1);
        ("number_of_replicas", JNumber 1);
        ("lifecycle.name", JString "logs_policy")]);
      ("mappings", JObject [
        ("properties", JObject [
          ("@timestamp", JObject [("type", JString "date")]);
          ("message", JObject [("type", JString "text")]);
          ("level", JObject [("type", JString "keyword")]);
          ("service", JObject [("type", JString "keyword")])])])])].

Section LoggerTs.

Context {W : Type} `{EsBackend W}.

Definition Client_new (elasticsearchNode : string) : M W Client :=
  fun w tr =>
    let r := new_Client elasticsearchNode in
    (r, w, tr ++ [EvNewClient elasticsearchNode r]).

Definition Date_new : M W Date :=
  fun w tr => let d := new_Date w in (Ok d, w, tr ++ [EvNewDate d]).

(** [winstonLogger] (lines 5-56). The constructors of the two libraries
    are embedded as the values they are given: what the remote sink and the
    logger do on their own once built (the remote sink contacts the backend
    to ship its records) is not part of this embedding. *)
Definition winstonLogger (elasticsearchNode name : string) (level : jsstring)
  : M W Logger :=
  esClient ← Client_new elasticsearchNode;
  today ← Date_new;
  let indexSuffix := indexSuffix today in
  let esTransport :=
    ElasticsearchTransport {|
      es_level := or_else level "info";
      client := esClient;
      indexPrefix := "logs";
      indexSuffixPattern := "YYYY.MM.DD";
      source := name;
      bufferLimit := 100;
      flushInterval := 500
    |} in
  let logger :=
    createLogger {|
      Winston.level := level;
      defaultMeta := [("service", name)];
      format := combine [timestamp; json_format];
      transports := [
        Console {| console_format := combine [colorize; simple] |};
        esTransport
      ]
    |} in
  logger_info logger ("Logger initialized for service: " +:+ name);;
  mret logger.

(** [checkElasticLoggingSetup] (lines 58-173). *)
Definition checkElasticLoggingSetup (elasticsearchNode : string) : M W bool :=
  try_catch
    (esClient ← Client_new elasticsearchNode;
     health ← await (cluster_health esClient) EvClusterHealth;
     console_log ("Elasticsearch health for logging: " +:+ status health);;
     try_catch
       (await (ilm_getLifecycle esClient "logs_policy")
              (EvGetLifecycle "logs_policy");;
        console_log "Using existing ILM policy for logs")
       (fun error =>
          console_log "Creating ILM policy for logs...";;
          await (ilm_putLifecycle esClient "logs_policy" logs_policy_body)
                (EvPutLifecycle "logs_policy" logs_policy_body);;
          console_log "ILM policy created successfully");;
     templateExists ←
       try_catch
         (await (indices_existsIndexTemplate esClient "logs_template")
                (EvExistsIndexTemplate "logs_template"))
         (fun _ => mret false);
     (if negb templateExists then
        console_log "Creating index template with ILM settings...";;
        await (indices_putIndexTemplate esClient "logs_template" logs_template_body)
              (EvPutIndexTemplate "logs_template" logs_template_body);;
        console_log "Index template created successfully"
      else mret tt);;
     today ← Date_new;
     let indexName := indexName today in
     indexExists ← await (indices_exists esClient indexName)
                         (EvIndicesExists indexName);
     (if negb indexExists then
        await (indices_create esClient indexName) (EvIndicesCreate indexName);;
        console_log ("Created Elasticsearch index: " +:+ indexName)
      else mret tt);;
     mret true)
    (fun error =>
       console_error "Failed to setup Elasticsearch logging:" error;;
       mret false).

(** A call from a fresh event log. *)
Definition run {A} (m : M W A) (w : W) : result A * W * list Event := m w [].

End LoggerTs.

(** ** A reference backend *)

Module Sim.

(** The backend operations, to name the one a fault hits. *)
Inductive Op : Type :=
| OpHealth
| OpGetLifecycle
| OpPutLifecycle
| OpExistsIndexTemplate
| OpPutIndexTemplate
| OpExists
| OpCreate.

(** Modelled from the spec: the search backend (an external system, not in
    the repository). It holds lifecycle policies and index templates by
    name and a set of indices; "all operations are network round-trips
    returning success or an error". A fetch of an absent policy is an error
    (the source's handler reads it as "policy does not exist yet"), the
    existence checks answer with a boolean, and a create of a name that is
    taken is an error ("error-if-exists"). [fault] makes an operation fail
    whatever the stored state is, as a timeout does. *)
Record Cluster : Type := mkCluster {
  policies : gmap string json;
  templates : gmap string json;
  indices : gset string;
  health_status : string;
  clock : Date;
  fault : Op -> option error
}.

Definition not_found : error := ResponseError 404 "resource_not_found_exception".
Definition already_exists : error := ResponseError 400 "resource_already_exists_exception".
Definition timeout : error := TransportError "TimeoutError".
Definition invalid_url : error := TransportError "ERR_INVALID_URL".

(** A round trip: the fault, if one is set, else the operation. *)
Definition round_trip {A} (op : Op) (f : Cluster -> result A * Cluster)
  (s : Cluster) : result A * Cluster :=
  match fault s op with
  | Some e => (Throw e, s)
  | None => f s
  end.

Definition construct (node : string) : result Client :=
  if String.eqb node "" then Throw invalid_url else Ok (mkClient node).

Definition health (_ : Client) : Cluster -> result HealthResponse * Cluster :=
  round_trip OpHealth (fun s => (Ok (mkHealth (health_status s)), s)).

Definition getLifecycle (_ : Client) (name : string)
  : Cluster -> result json * Cluster :=
  round_trip OpGetLifecycle (fun s =>
    match policies s !! name with
    | Some p => (Ok p, s)
    | None => (Throw not_found, s)
    end).

Definition putLifecycle (_ : Client) (name : string) (body : json)
  : Cluster -> result unit * Cluster :=
  round_trip OpPutLifecycle (fun s =>
    match policies s !! name with
    | Some _ => (Throw already_exists, s)
    | None =>
        (Ok tt, mkCluster (<[name := body]> (policies s)) (templates s) (indices s)
                          (health_status s) (clock s) (fault s))
    end).

Definition existsIndexTemplate (_ : Client) (name : string)
  : Cluster -> result bool * Cluster :=
  round_trip OpExistsIndexTemplate (fun s =>
    (Ok (bool_decide (is_Some (templates s !! name))), s)).

Definition putIndexTemplate (_ : Client) (name : string) (body : json)
  : Cluster -> result unit * Cluster :=
  round_trip OpPutIndexTemplate (fun s =>
    match templates s !! name with
    | Some _ => (Throw already_exists, s)
    | None =>
        (Ok tt, mkCluster (policies s) (<[name := body]> (templates s)) (indices s)
                          (health_status s) (clock s) (fault s))
    end).

Definition exists_ (_ : Client) (index : string)
  : Cluster -> result bool * Cluster :=
  round_trip OpExists (fun s => (Ok (bool_decide (index ∈ indices s)), s)).

Definition create (_ : Client) (index : string)
  : Cluster -> result unit * Cluster :=
  round_trip OpCreate (fun s =>
    if bool_decide (index ∈ indices s) then (Throw already_exists, s)
    else
      (Ok tt, mkCluster (policies s) (templates s) ({[index]} ∪ indices s)
                        (health_status s) (clock s) (fault s))).

#[global] Instance backend : EsBackend Cluster := {|
  new_Client := construct;
  cluster_health := health;
  ilm_getLifecycle := getLifecycle;
  ilm_putLifecycle := putLifecycle;
  indices_existsIndexTemplate := existsIndexTemplate;
  indices_putIndexTemplate := putIndexTemplate;
  indices_exists := exists_;
  indices_create := create;
  new_Date := clock
|}.

Definition no_fault : Op -> option error := fun _ => None.

(** 5 March 2024, early afternoon. *)
Definition march5 : Date := mkDate 2024 2 5 13 7 0 0.

(** A cluster with nothing in it. *)
Definition empty_cluster : Cluster :=
  mkCluster ∅ ∅ ∅ "green" march5 no_fault.

(** A cluster that already has the policy, the template and the index of
    the day. *)
Definition ready_cluster : Cluster :=
  mkCluster {[ "logs_policy" := logs_policy_body ]}
            {[ "logs_template" := logs_template_body ]}
            {[ "logs-2024.03.05" ]} "green" march5 no_fault.

(** The same cluster on a bad network: fetching a policy times out. *)
Definition ready_cluster_get_times_out : Cluster :=
  mkCluster (policies ready_cluster) (templates ready_cluster)
            (indices ready_cluster) "green" march5
            (fun op => match op with OpGetLifecycle => Some timeout | _ => None end).

(** A cluster whose health endpoint times out. *)
Definition cluster_health_down : Cluster :=
  mkCluster ∅ ∅ ∅ "red" march5
            (fun op => match op with OpHealth => Some timeout | _ => None end).

(** A cluster whose index-existence check times out. *)
Definition cluster_exists_down : Cluster :=
  mkCluster ∅ ∅ ∅ "yellow" march5
            (fun op => match op with OpExists => Some timeout | _ => None end).

End Sim.

(** A severity table to run the façade with: the level names of winston's
    default (npm) configuration, most severe first. *)
Definition npm_levels (l : string) : option nat :=
  if String.eqb l "error" then Some 0%nat
  else if String.eqb l "warn" then Some 1%nat
  else if String.eqb l "info" then Some 2%nat
  else if String.eqb l "http" then Some 3%nat
  else if String.eqb l "verbose" then Some 4%nat
  else if String.eqb l "debug" then Some 5%nat
  else if String.eqb l "silly" then Some 6%nat
  else None.

Definition setup_failed_msg : string := "Failed to setup Elasticsearch logging:".

(** The failures the source absorbs at the call: a rejected policy fetch
    (inner [catch], line 74) and a rejected template check ([.catch], line
    124) are read as "absent". *)
Definition absorbed (ev : Event) : bool :=
  match ev with
  | EvGetLifecycle _ _ | EvExistsIndexTemplate _ _ => true
  | _ => false
  end.

(** Running twice in succession, the second call starting where the first
    one left the backend. *)
Definition twice {W A} (m : M W A) : M W (A * A) :=
  a ← m; b ← m; mret (a, b).

(** What a run sees of a backend that has the policy, the template and the
    index, with every round trip succeeding. *)
Definition sees_ready (ev : Event) : bool :=
  match ev with
  | EvExistsIndexTemplate _ r | EvIndicesExists _ r =>
      match r with Ok true => true | _ => false end
  | _ => match failed ev with None => true | Some _ => false end
  end.

(** What a run sees of a backend that has none of them, with every round
    trip succeeding: the fetch of the policy is rejected, the two existence
    checks answer [false], and nothing else fails. *)
Definition sees_empty (ev : Event) : bool :=
  match ev with
  | EvGetLifecycle _ r => match r with Throw _ => true | Ok _ => false end
  | EvExistsIndexTemplate _ r | EvIndicesExists _ r =>
      match r with Ok false => true | _ => false end
  | _ => match failed ev with None => true | Some _ => false end
  end.

(** ** Vocabulary for the order of backend calls *)

(** The backend operations of the client. *)
Inductive Call : Type :=
| CallHealth
| CallGetLifecycle
| CallPutLifecycle
| CallExistsIndexTemplate
| CallPutIndexTemplate
| CallExists
| CallCreate.

(** The operation an event is a call of, if it is a backend call. *)
Definition call_of (ev : Event) : option Call :=
  match ev with
  | EvClusterHealth _ => Some CallHealth
  | EvGetLifecycle _ _ => Some CallGetLifecycle
  | EvPutLifecycle _ _ _ => Some CallPutLifecycle
  | EvExistsIndexTemplate _ _ => Some CallExistsIndexTemplate
  | EvPutIndexTemplate _ _ _ => Some CallPutIndexTemplate
  | EvIndicesExists _ _ => Some CallExists
  | EvIndicesCreate _ _ => Some CallCreate
  | _ => None
  end.

(** The backend operations of a run, in the order they were called. *)
Definition calls (tr : list Event) : list Call := omap call_of tr.

(** The order in which [checkElasticLoggingSetup] is written to call them. *)
Definition setup_order : list Call :=
  [CallHealth; CallGetLifecycle; CallPutLifecycle; CallExistsIndexTemplate;
   CallPutIndexTemplate; CallExists; CallCreate].

(** A record logged through a winston handle. *)
Definition is_logger_log (ev : Event) : bool :=
  match ev with
  | EvLoggerLog _ _ _ => true
  | _ => false
  end.

(** The ranges of [getMonth] and [getDate]. *)
Definition valid_date (d : Date) : Prop :=
  0 <= getMonth d <= 11 /\ 1 <= getDate d <= 31.

(** ** Worked runs *)


(** ** Properties of the index suffix *)

Lemma padStart_two_digits (n : Z) :
  0 <= n < 100 -> padStart 2 "0" (String_ n) = two_digits n.
Proof.
  intros Hn.
  assert (Hall : forallb
            (fun k => String.eqb (padStart 2 "0" (String_ (Z.of_nat k)))
                                 (two_digits (Z.of_nat k)))
            (seq 0 100) = true) by (vm_compute; reflexivity).
  rewrite forallb_forall in Hall.
  specialize (Hall (Z.to_nat n)).
  rewrite Z2Nat.id in Hall by lia.
  apply String.eqb_eq, Hall, in_seq. lia.
Qed.

Lemma indexName_indexSuffix (d : Date) : indexName d = "logs-" +:+ indexSuffix d.
Proof. reflexivity. Qed.

(** C6. The index suffix is a function of the calendar date alone (year,
    month, day of the local date; the time of day plays no part): it is the
    year, a period, the month number as two digits, a period, the day as
    two digits. The index name is ["logs-"] followed by that suffix. For
    5 March 2024 the suffix is [2024.03.05] and the index name
    [logs-2024.03.05]. *)
Theorem index_suffix_calendar_date (d : Date) :
  0 <= getMonth d <= 11 ->
  1 <= getDate d <= 31 ->
  indexSuffix d
    = String_ (getFullYear d) +:+ "." +:+ two_digits (getMonth d + 1)
        +:+ "." +:+ two_digits (getDate d)
  /\ indexName d = "logs-" +:+ indexSuffix d
  /\ (forall d' : Date,
        getFullYear d' = getFullYear d -> getMonth d' = getMonth d ->
        getDate d' = getDate d ->
        indexSuffix d' = indexSuffix d /\ indexName d' = indexName d)
  /\ (getFullYear d = 2024 -> getMonth d = 2 -> getDate d = 5 ->
      indexSuffix d = "2024.03.05" /\ indexName d = "logs-2024.03.05").
Proof.
  intros Hm Hd.
  assert (Hs : indexSuffix d
               = String_ (getFullYear d) +:+ "." +:+ two_digits (getMonth d + 1)
                   +:+ "." +:+ two_digits (getDate d)).
  { unfold indexSuffix. cbv zeta.
    rewrite !padStart_two_digits by lia. reflexivity. }
  split; [exact Hs|]. split; [apply indexName_indexSuffix|]. split.
  - intros d' Hy' Hm' Hd'. unfold indexName, indexSuffix.
    rewrite Hy', Hm', Hd'. split; reflexivity.
  - intros Hy H2 H5. rewrite indexName_indexSuffix, Hs, Hy, H2, H5.
    split; reflexivity.
Qed.

Lemma index_suffix_calendar_date_witness :
  indexSuffix Sim.march5 = "2024.03.05"
  /\ indexName Sim.march5 = "logs-2024.03.05".
Proof.
  refine (proj2 (proj2 (proj2 (index_suffix_calendar_date Sim.march5 _ _))) _ _ _);
    simpl; (lia || reflexivity).
Defined.

(** ** Stepping through a run of [checkElasticLoggingSetup] *)

Ltac unfold_run :=
  unfold run, twice, checkElasticLoggingSetup, winstonLogger, console_log,
    console_error, logger_info, Client_new, Date_new, try_catch, await, emit,
    mbind, M_bind, mret, M_ret.

(** Case analysis on the outcome of the next backend call of the goal. *)
Ltac step :=
  match goal with
  | |- context [new_Client ?n] =>
      destruct (new_Client n) as [?c|?e] eqn:?
  | |- context [cluster_health ?c ?w] =>
      destruct (cluster_health c w) as [[?h|?e] ?w] eqn:?
  | |- context [ilm_getLifecycle ?c ?n ?w] =>
      destruct (ilm_getLifecycle c n w) as [[?p|?e] ?w] eqn:?
  | |- context [ilm_putLifecycle ?c ?n ?b ?w] =>
      destruct (ilm_putLifecycle c n b w) as [[[]|?e] ?w] eqn:?
  | |- context [indices_existsIndexTemplate ?c ?n ?w] =>
      destruct (indices_existsIndexTemplate c n w) as [[[|]|?e] ?w] eqn:?
  | |- context [indices_putIndexTemplate ?c ?n ?b ?w] =>
      destruct (indices_putIndexTemplate c n b w) as [[[]|?e] ?w] eqn:?
  | |- context [indices_exists ?c ?n ?w] =>
      destruct (indices_exists c n w) as [[[|]|?e] ?w] eqn:?
  | |- context [indices_create ?c ?n ?w] =>
      destruct (indices_create c n w) as [[[]|?e] ?w] eqn:?
  end; cbn beta iota zeta delta [negb].

Ltac all_paths := unfold_run; cbn beta iota zeta; repeat step.

(** The goal is [run ... = (r, w', tr) -> ...] on every path: name the
    outcome and compute the event log. *)
Ltac on_every_path := intros ? ? ? [= <- <- <-]; cbn [app].

Ltac compute_log :=
  cbn [In List.filter forallb is_create is_backend_call failed absorbed
       sees_ready sees_empty andb last] in *.

(** Case analysis on a hypothesis [In ev log] over a computed log. *)
Ltac which_event Hin :=
  cbn [In] in Hin;
  repeat match type of Hin with
         | _ \/ _ => destruct Hin as [Hin|Hin]; [try discriminate Hin|]
         end;
  try contradiction; simplify_eq.

Ltac close_path :=
  unfold setup_failed_msg;
  repeat match goal with
  | |- _ -> _ => let Hx := fresh "Hx" in intros Hx; which_event Hx
  | |- forall _, _ => intro
  | |- _ /\ _ => split
  end; compute_log; eauto 12.

(** ** General facts about a run *)

(** The events of a call are appended to the log; they do not depend on
    what was logged before. *)
Lemma run_frame {W} `{EsBackend W} (node : string) (w : W) (tr0 : list Event) :
  checkElasticLoggingSetup node w tr0
  = let '(r, w', tr) := run (checkElasticLoggingSetup node) w in
    (r, w', tr0 ++ tr).
Proof.
  all_paths; cbn [app]; rewrite <- ?app_assoc; reflexivity.
Qed.

Lemma run_total {W} `{EsBackend W} (node : string) (w : W) :
  exists b w' tr, run (checkElasticLoggingSetup node) w = (Ok b, w', tr).
Proof. all_paths; eauto. Qed.

Lemma run_twice {W A} (m : M W A) (w : W) :
  run (twice m) w
  = match run m w with
    | (Ok a, w1, tr1) =>
        match m w1 tr1 with
        | (Ok b, w2, tr2) => (Ok (a, b), w2, tr2)
        | (Throw e, w2, tr2) => (Throw e, w2, tr2)
        end
    | (Throw e, w1, tr1) => (Throw e, w1, tr1)
    end.
Proof.
  unfold run, twice, mbind, M_bind, mret, M_ret.
  destruct (m w []) as [[[a|e] w1] tr1]; [|reflexivity].
  destruct (m w1 tr1) as [[[b|e] w2] tr2]; reflexivity.
Qed.

(** One call against a backend that reports everything present. *)
Lemma run_sees_ready {W} `{EsBackend W} (node : string) (w : W) r w' tr :
  run (checkElasticLoggingSetup node) w = (r, w', tr) ->
  forallb sees_ready tr = true ->
  r = Ok true
  /\ List.filter is_create tr = []
  /\ exists h p d,
       List.filter is_backend_call tr
       = [EvClusterHealth (Ok h); EvGetLifecycle "logs_policy" (Ok p);
          EvExistsIndexTemplate "logs_template" (Ok true);
          EvIndicesExists (indexName d) (Ok true)].
Proof.
  revert r w' tr.
  all_paths; on_every_path; compute_log; intros Hall; try discriminate Hall;
    eauto 10.
Qed.

Lemma triple_eta {A B C} (x : A * B * C) : x = (x.1.1, x.1.2, x.2).
Proof. destruct x as [[? ?] ?]; reflexivity. Qed.

(** ** Properties of [checkElasticLoggingSetup] *)



(** C2. Against a backend that reports the policy, the template and the
    index of the day present, with every check succeeding, two calls in
    succession both return [true]; neither issues a [putLifecycle], a
    [putIndexTemplate] or an index [create]; the only backend calls of each
    are the health query and the three existence checks. *)
Theorem setup_idempotent {W} `{EsBackend W} (node : string) (w : W) r w' tr :
  run (twice (checkElasticLoggingSetup node)) w = (r, w', tr) ->
  forallb sees_ready tr = true ->
  r = Ok (true, true)
  /\ List.filter is_create tr = []
  /\ exists w1 tr1 tr2,
       run (checkElasticLoggingSetup node) w = (Ok true, w1, tr1)
       /\ run (checkElasticLoggingSetup node) w1 = (Ok true, w', tr2)
       /\ tr = tr1 ++ tr2
       /\ (exists h p d,
             List.filter is_backend_call tr1
             = [EvClusterHealth (Ok h); EvGetLifecycle "logs_policy" (Ok p);
                EvExistsIndexTemplate "logs_template" (Ok true);
                EvIndicesExists (indexName d) (Ok true)])
       /\ (exists h p d,
             List.filter is_backend_call tr2
             = [EvClusterHealth (Ok h); EvGetLifecycle "logs_policy" (Ok p);
                EvExistsIndexTemplate "logs_template" (Ok true);
                EvIndicesExists (indexName d) (Ok true)]).
Proof.
  rewrite run_twice.
  destruct (run_total node w) as (b1 & w1 & tr1 & Hrun1). rewrite Hrun1.
  rewrite run_frame.
  destruct (run_total node w1) as (b2 & w2 & tr2 & Hrun2). rewrite Hrun2.
  intros [= <- <- <-] Hall.
  rewrite forallb_app in Hall. apply andb_true_iff in Hall as [Hall1 Hall2].
  destruct (run_sees_ready node w _ _ _ Hrun1 Hall1) as ([= ->] & Hc1 & Hb1).
  destruct (run_sees_ready node w1 _ _ _ Hrun2 Hall2) as ([= ->] & Hc2 & Hb2).
  split; [reflexivity|]. split.
  - rewrite List.filter_app, Hc1, Hc2. reflexivity.
  - exists w1, tr1, tr2. auto.
Qed.

Lemma setup_idempotent_witness :
  let out := run (twice (checkElasticLoggingSetup "http://localhost:9200"))
                 Sim.ready_cluster in
  forallb sees_ready out.2 = true
  /\ out.1.1 = Ok (true, true)
  /\ List.filter is_create out.2 = []
  /\ out.1.2 = Sim.ready_cluster.
Proof.
  intros out.
  assert (Hall : forallb sees_ready out.2 = true) by (vm_compute; reflexivity).
  destruct (setup_idempotent "http://localhost:9200" Sim.ready_cluster
              _ _ _ (triple_eta out) Hall) as (Hr & Hc & _).
  split; [exact Hall|]. split; [exact Hr|]. split; [exact Hc|].
  vm_compute; reflexivity.
Defined.

(** C3. A first run: against a backend that reports nothing present (the
    policy fetch is rejected, both existence checks answer [false]) and on
    which every other call succeeds, the function returns [true] and issues
    exactly three creating calls, in this order: [putLifecycle] of
    [logs_policy], [putIndexTemplate] of [logs_template], and [create] of
    the index [logs-<today>] for the date the run read from the clock. The
    policy has the four phases hot, warm, cold, delete at minimum ages
    0ms, 7d, 30d, 90d with the actions listed; the template has the pattern
    [logs-*], one shard, one replica, [lifecycle.name = logs_policy] and
    the four field mappings. *)
Theorem first_run_creates {W} `{EsBackend W} (node : string) (w : W) r w' tr :
  run (checkElasticLoggingSetup node) w = (r, w', tr) ->
  forallb sees_empty tr = true ->
  r = Ok true
  /\ (exists today,
        In (EvNewDate today) tr
        /\ List.filter is_create tr
           = [EvPutLifecycle "logs_policy" logs_policy_body (Ok tt);
              EvPutIndexTemplate "logs_template" logs_template_body (Ok tt);
              EvIndicesCreate (indexName today) (Ok tt)])
  /\ (keys <$> at_path ["policy"; "phases"] logs_policy_body
        = Some ["hot"; "warm"; "cold"; "delete"]
      /\ at_path ["policy"; "phases"; "hot"] logs_policy_body
         = Some (JObject [
             ("min_age", JString "0ms");
             ("actions", JObject [
               ("rollover", JObject [("max_age", JString "7d");
                                     ("max_size", JString "5gb")])])])
      /\ at_path ["policy"; "phases"; "warm"] logs_policy_body
         = Some (JObject [
             ("min_age", JString "7d");
             ("actions", JObject [
               ("shrink", JObject [("number_of_shards", JNumber 1)]);
               ("forcemerge", JObject [("max_num_segments", JNumber 1)])])])
      /\ at_path ["policy"; "phases"; "cold"] logs_policy_body
         = Some (JObject [("min_age", JString "30d"); ("actions", JObject [])])
      /\ at_path ["policy"; "phases"; "delete"] logs_policy_body
         = Some (JObject [
             ("min_age", JString "90d");
             ("actions", JObject [("delete", JObject [])])]))
  /\ (at_path ["index_patterns"] logs_template_body
        = Some (JArray [JString "logs-*"])
      /\ at_path ["template"; "settings"] logs_template_body
         = Some (JObject [("number_of_shards", JNumber 1);
                          ("number_of_replicas", JNumber 1);
                          ("lifecycle.name", JString "logs_policy")])
      /\ at_path ["template"; "mappings"; "properties"] logs_template_body
         = Some (JObject [
             ("@timestamp", JObject [("type", JString "date")]);
             ("message", JObject [("type", JString "text")]);
             ("level", JObject [("type", JString "keyword")]);
             ("service", JObject [("type", JString "keyword")])])).
Proof.
  intros Hrun Hall.
  assert (Hlog : r = Ok true
    /\ exists today,
        In (EvNewDate today) tr
        /\ List.filter is_create tr
           = [EvPutLifecycle "logs_policy" logs_policy_body (Ok tt);
              EvPutIndexTemplate "logs_template" logs_template_body (Ok tt);
              EvIndicesCreate (indexName today) (Ok tt)]).
  { revert r w' tr Hrun Hall.
    all_paths; on_every_path; compute_log; intros Hall; try discriminate Hall.
    split; [reflexivity|]. eexists. split; [|reflexivity]. cbn [In]. auto 20. }
  destruct Hlog as [Hr Hcreate].
  split; [exact Hr|]. split; [exact Hcreate|].
  split; repeat split; reflexivity.
Qed.

Lemma first_run_creates_witness :
  let out := run (checkElasticLoggingSetup "http://localhost:9200")
                 Sim.empty_cluster in
  forallb sees_empty out.2 = true
  /\ out.1.1 = Ok true
  /\ List.filter is_create out.2
     = [EvPutLifecycle "logs_policy" logs_policy_body (Ok tt);
        EvPutIndexTemplate "logs_template" logs_template_body (Ok tt);
        EvIndicesCreate "logs-2024.03.05" (Ok tt)]
  /\ out.1.2
     = Sim.mkCluster {[ "logs_policy" := logs_policy_body ]}
                     {[ "logs_template" := logs_template_body ]}
                     {[ "logs-2024.03.05" ]} "green" Sim.march5 Sim.no_fault.
Proof.
  intros out.
  assert (Hall : forallb sees_empty out.2 = true) by (vm_compute; reflexivity).
  destruct (first_run_creates "http://localhost:9200" Sim.empty_cluster
              _ _ _ (triple_eta out) Hall) as (Hr & _ & _).
  split; [exact Hall|]. split; [exact Hr|].
  split; vm_compute; reflexivity.
Defined.

(** C4. In every run in which the fetch of [logs_policy] is rejected,
    whatever the reason, the function goes on to call [putLifecycle] for
    [logs_policy]. When that call is rejected too, the function returns
    [false], the diagnostic with the error of the [putLifecycle] is the last
    thing logged, and the template and index steps are not reached: the
    state of the backend plays no part, so this is also the outcome when
    the backend was already fully set up. *)
Theorem ambiguous_fetch_error {W} `{EsBackend W}
  (node : string) (w : W) r w' tr (e : error) :
  run (checkElasticLoggingSetup node) w = (r, w', tr) ->
  In (EvGetLifecycle "logs_policy" (Throw e)) tr ->
  (exists r', In (EvPutLifecycle "logs_policy" logs_policy_body r') tr)
  /\ (forall e',
        In (EvPutLifecycle "logs_policy" logs_policy_body (Throw e')) tr ->
        r = Ok false
        /\ last tr = Some (EvConsoleError setup_failed_msg e')
        /\ exists h,
             List.filter is_backend_call tr
             = [EvClusterHealth (Ok h);
                EvGetLifecycle "logs_policy" (Throw e);
                EvPutLifecycle "logs_policy" logs_policy_body (Throw e')]).
Proof.
  revert r w' tr. all_paths; on_every_path; close_path.
Qed.

Lemma ambiguous_fetch_error_witness :
  let out := run (checkElasticLoggingSetup "http://localhost:9200")
                 Sim.ready_cluster_get_times_out in
  In (EvGetLifecycle "logs_policy" (Throw Sim.timeout)) out.2
  /\ In (EvPutLifecycle "logs_policy" logs_policy_body
           (Throw Sim.already_exists)) out.2
  /\ out.1.1 = Ok false
  /\ last out.2 = Some (EvConsoleError setup_failed_msg Sim.already_exists)
  /\ out.1.2 = Sim.ready_cluster_get_times_out.
Proof.
  intros out.
  assert (Hget : In (EvGetLifecycle "logs_policy" (Throw Sim.timeout)) out.2)
    by (vm_compute; auto 10).
  assert (Hput : In (EvPutLifecycle "logs_policy" logs_policy_body
                       (Throw Sim.already_exists)) out.2)
    by (vm_compute; auto 10).
  destruct (ambiguous_fetch_error "http://localhost:9200"
              Sim.ready_cluster_get_times_out _ _ _ Sim.timeout
              (triple_eta out) Hget) as [_ Hfail].
  destruct (Hfail _ Hput) as (Hr & Hlast & _).
  split; [exact Hget|]. split; [exact Hput|]. split; [exact Hr|].
  split; [exact Hlast|]. vm_compute; reflexivity.
Defined.

(** C5. In every run in which the cluster-health query is rejected, the
    function returns [false], the diagnostic with that error is the last
    thing logged, and the health query is the only backend call: no
    [putLifecycle], [putIndexTemplate] or index [create] is attempted. *)
Theorem health_failure_returns_false {W} `{EsBackend W}
  (node : string) (w : W) r w' tr (e : error) :
  run (checkElasticLoggingSetup node) w = (r, w', tr) ->
  In (EvClusterHealth (Throw e)) tr ->
  r = Ok false
  /\ List.filter is_create tr = []
  /\ List.filter is_backend_call tr = [EvClusterHealth (Throw e)]
  /\ last tr = Some (EvConsoleError setup_failed_msg e).
Proof.
  revert r w' tr. all_paths; on_every_path; close_path.
Qed.

Lemma health_failure_returns_false_witness :
  let out := run (checkElasticLoggingSetup "http://localhost:9200")
                 Sim.cluster_health_down in
  In (EvClusterHealth (Throw Sim.timeout)) out.2
  /\ out.1.1 = Ok false
  /\ List.filter is_create out.2 = []
  /\ out.1.2 = Sim.cluster_health_down.
Proof.
  intros out.
  assert (Hin : In (EvClusterHealth (Throw Sim.timeout)) out.2)
    by (vm_compute; auto 10).
  destruct (health_failure_returns_false "http://localhost:9200"
              Sim.cluster_health_down _ _ _ Sim.timeout
              (triple_eta out) Hin) as (Hr & Hc & _).
  split; [exact Hin|]. split; [exact Hr|]. split; [exact Hc|].
  vm_compute; reflexivity.
Defined.

(** C10. The existence check of the daily index is not wrapped: in every
    run in which [indices.exists] is rejected, the function returns [false],
    the diagnostic with that very error is the last thing logged, and no
    index [create] is attempted. The policy and template steps differ: a
    rejected policy fetch is followed by a [putLifecycle], and a rejected
    template check by a [putIndexTemplate]. *)
Theorem index_check_failure_propagates {W} `{EsBackend W}
  (node : string) (w : W) r w' tr :
  run (checkElasticLoggingSetup node) w = (r, w', tr) ->
  (forall index e,
     In (EvIndicesExists index (Throw e)) tr ->
     r = Ok false
     /\ last tr = Some (EvConsoleError setup_failed_msg e)
     /\ (forall i r', ~ In (EvIndicesCreate i r') tr))
  /\ (forall e,
        In (EvGetLifecycle "logs_policy" (Throw e)) tr ->
        exists r', In (EvPutLifecycle "logs_policy" logs_policy_body r') tr)
  /\ (forall e,
        In (EvExistsIndexTemplate "logs_template" (Throw e)) tr ->
        exists r',
          In (EvPutIndexTemplate "logs_template" logs_template_body r') tr).
Proof.
  revert r w' tr. all_paths; on_every_path; unfold not; close_path.
Qed.

Lemma index_check_failure_propagates_witness :
  let out := run (checkElasticLoggingSetup "http://localhost:9200")
                 Sim.cluster_exists_down in
  In (EvIndicesExists "logs-2024.03.05" (Throw Sim.timeout)) out.2
  /\ out.1.1 = Ok false
  /\ last out.2 = Some (EvConsoleError setup_failed_msg Sim.timeout)
  /\ Sim.indices out.1.2 = ∅.
Proof.
  intros out.
  assert (Hin : In (EvIndicesExists "logs-2024.03.05" (Throw Sim.timeout)) out.2)
    by (vm_compute; auto 20).
  destruct (index_check_failure_propagates "http://localhost:9200"
              Sim.cluster_exists_down _ _ _ (triple_eta out)) as [Hexists _].
  destruct (Hexists _ _ Hin) as (Hr & Hlast & _).
  split; [exact Hin|]. split; [exact Hr|]. split; [exact Hlast|].
  vm_compute; reflexivity.
Defined.

(** ** Properties of [winstonLogger] *)

(** The sinks of a handle built by [winstonLogger]. *)
Lemma winstonLogger_run {W} `{EsBackend W}
  (node name : string) (level : jsstring) (w : W) :
  run (winstonLogger node name level) w
  = match new_Client node with
    | Ok c =>
        let lg :=
          createLogger {|
            Winston.level := level;
            defaultMeta := [("service", name)];
            format := combine [timestamp; json_format];
            transports := [
              Console {| console_format := combine [colorize; simple] |};
              ElasticsearchTransport {|
                es_level := or_else level "info";
                client := c;
                indexPrefix := "logs";
                indexSuffixPattern := "YYYY.MM.DD";
                source := name;
                bufferLimit := 100;
                flushInterval := 500 |} ] |} in
        (Ok lg, w,
         [EvNewClient node (Ok c); EvNewDate (new_Date w);
          EvLoggerLog lg "info" ("Logger initialized for service: " +:+ name)])
    | Throw e => (Throw e, w, [EvNewClient node (Throw e)])
    end.
Proof.
  unfold_run. destruct (new_Client node); reflexivity.
Qed.

(** C8. Every call either fails in the client constructor, before any sink
    is built, or returns a handle with two sinks, the console and the remote
    one, and the remote one is configured with: minimum level the [level]
    argument, or ["info"] when that is undefined or empty; index prefix
    ["logs"]; suffix pattern ["YYYY.MM.DD"]; source the [name] argument;
    buffer limit 100; flush interval 500. *)
Theorem remote_sink_configuration {W} `{EsBackend W}
  (node name : string) (level : jsstring) (w : W) r w' tr :
  run (winstonLogger node name level) w = (r, w', tr) ->
  (forall e, r = Throw e -> new_Client node = Throw e)
  /\ (forall lg, r = Ok lg ->
        exists c console o,
          new_Client node = Ok c
          /\ transports (options lg) = [Console console; ElasticsearchTransport o]
          /\ client o = c
          /\ (level = None \/ level = Some "" -> es_level o = "info")
          /\ (forall l, level = Some l -> l <> "" -> es_level o = l)
          /\ indexPrefix o = "logs"
          /\ indexSuffixPattern o = "YYYY.MM.DD"
          /\ source o = name
          /\ bufferLimit o = 100
          /\ flushInterval o = 500).
Proof.
  rewrite winstonLogger_run.
  destruct (new_Client node) as [c|e]; intros [= <- <- <-].
  - split; [discriminate|]. intros lg [= <-].
    eexists _, _, _. split; [reflexivity|]. split; [reflexivity|].
    cbn [client es_level indexPrefix indexSuffixPattern source bufferLimit
         flushInterval].
    repeat split.
    + intros [-> | ->]; reflexivity.
    + intros l -> Hl. unfold or_else, truthy.
      destruct (String.eqb_spec l ""); [contradiction | reflexivity].
  - split; [intros ? [= <-]; reflexivity | discriminate].
Qed.

Lemma remote_sink_configuration_witness :
  let out := run (winstonLogger "http://localhost:9200" "orders" None)
                 Sim.empty_cluster in
  exists lg o console,
    out.1.1 = Ok lg
    /\ transports (options lg) = [Console console; ElasticsearchTransport o]
    /\ es_level o = "info" /\ source o = "orders"
    /\ bufferLimit o = 100 /\ flushInterval o = 500.
Proof.
  intros out.
  destruct (remote_sink_configuration "http://localhost:9200" "orders" None
              Sim.empty_cluster _ _ _ (triple_eta out)) as [_ Hok].
  destruct (Hok _ eq_refl)
    as (c & console & o & _ & Ht & _ & Hinfo & _ & _ & _ & Hs & Hb & Hf).
  exists (createLogger
            {| Winston.level := None;
               defaultMeta := [("service", "orders")];
               format := combine [timestamp; json_format];
               transports := [Console console; ElasticsearchTransport o] |}),
         o, console.
  split; [vm_compute in Ht |- *; congruence|].
  split; [reflexivity|]. split; [apply Hinfo; auto|]. auto.
Defined.

(** C9, as the code has it. The ["info"] default that the source writes
    ([level || "info"]) goes to the remote sink only; the options handed to
    [winston.createLogger] carry the [level] argument as it came. With an
    empty string the logger's level stays the empty string, so it is unset
    and not ["info"], while the remote sink has ["info"]. With an undefined
    level the remote sink has ["info"] too, and the logger's level is
    ["info"] as well, by winston's own default. With any other string the
    logger's level is that string. *)
Theorem logger_level_raw_argument {W} `{EsBackend W}
  (node name : string) (level : jsstring) (w : W) r w' tr lg :
  run (winstonLogger node name level) w = (r, w', tr) ->
  r = Ok lg ->
  Winston.level (options lg) = level
  /\ (exists console o,
        transports (options lg) = [Console console; ElasticsearchTransport o]
        /\ (level = None \/ level = Some "" -> es_level o = "info"))
  /\ (level = Some "" -> logger_level lg = "" /\ logger_level lg <> "info")
  /\ (level = None -> logger_level lg = "info")
  /\ (forall l, level = Some l -> logger_level lg = l).
Proof.
  rewrite winstonLogger_run.
  destruct (new_Client node) as [c|e]; intros [= <- <- <-]; [|discriminate].
  intros [= <-]. split; [reflexivity|]. split.
  { eexists _, _. split; [reflexivity|].
    intros [-> | ->]; reflexivity. }
  unfold logger_level. cbn [options Winston.level].
  split; [intros ->; split; [reflexivity | discriminate]|].
  split; [intros ->; reflexivity|].
  intros l ->. reflexivity.
Qed.

(** C9, as stated, does not hold for an undefined level: the logger's level
    is then ["info"], not unset. *)
Lemma undefined_level_counterexample :
  ~ (forall (W : Type) (B : EsBackend W) (node name : string)
            (level : jsstring) (w : W) r w' tr lg,
       run (winstonLogger node name level) w = (r, w', tr) ->
       r = Ok lg ->
       level = None \/ level = Some "" ->
       logger_level lg <> "info").
Proof.
  intros Hclaim.
  refine (Hclaim Sim.Cluster Sim.backend "http://localhost:9200" "orders" None
            Sim.empty_cluster _ _ _ _ (triple_eta _) eq_refl (or_introl eq_refl)
            _).
  reflexivity.
Qed.

Lemma logger_level_raw_argument_witness :
  let out := run (winstonLogger "http://localhost:9200" "orders" (Some ""))
                 Sim.empty_cluster in
  exists lg,
    out.1.1 = Ok lg
    /\ Winston.level (options lg) = Some ""
    /\ logger_level lg = ""
    /\ logger_level lg <> "info".
Proof.
  intros out.
  assert (Hok : exists lg, out.1.1 = Ok lg) by (vm_compute; eauto).
  destruct Hok as [lg Hlg]. exists lg.
  destruct (logger_level_raw_argument "http://localhost:9200" "orders"
              (Some "") Sim.empty_cluster _ _ _ lg (triple_eta out) Hlg)
    as (Hraw & _ & Hempty & _).
  destruct (Hempty eq_refl) as [Hlevel Hne].
  auto.
Defined.

(** C7. For a service name and a minimum level that the façade knows (and
    that is not the empty string), [winstonLogger] returns a handle as soon
    as the client can be built for the address; the handle's [defaultMeta]
    is exactly [{ service: name }] and its level the given one, and both of
    its sinks gate at that level. So every record the handle delivers
    carries [service = name], a record of a level below the minimum is
    delivered to no sink, and a record at or above it reaches both. *)
Theorem logger_tags_and_gates {W} `{EsBackend W}
  (severity : string -> option nat)
  (node name minLevel : string) (m : nat) (w : W) r w' tr :
  severity minLevel = Some m ->
  minLevel <> "" ->
  run (winstonLogger node name (Some minLevel)) w = (r, w', tr) ->
  (forall c, new_Client node = Ok c -> exists lg, r = Ok lg)
  /\ (forall lg, r = Ok lg ->
        defaultMeta (options lg) = [("service", name)]
        /\ Winston.level (options lg) = Some minLevel
        /\ (forall t, In t (transports (options lg)) ->
              sink_level (options lg) t = Some minLevel)
        /\ (forall lvl msg t rec,
              In (t, rec) (deliver severity lg lvl msg) ->
              assoc "service" (rec_meta rec) = Some name
              /\ rec_level rec = lvl /\ rec_message rec = msg)
        /\ (forall lvl msg k,
              severity lvl = Some k -> (m < k)%nat ->
              deliver severity lg lvl msg = [])
        /\ (forall lvl msg k,
              severity lvl = Some k -> (k <= m)%nat ->
              map fst (deliver severity lg lvl msg) = transports (options lg))).
Proof.
  intros Hm Hne. rewrite winstonLogger_run.
  unfold or_else, truthy.
  destruct (String.eqb_spec minLevel "") as [|_]; [contradiction|].
  cbn [negb].
  destruct (new_Client node) as [c|e]; intros [= <- <- <-];
    [|split; discriminate].
  split; [eauto|]. intros lg [= <-].
  split; [reflexivity|]. split; [reflexivity|].
  split.
  { intros t [<- | [<- | []]]; reflexivity. }
  assert (Hdeliver : forall lvl msg,
    deliver severity
      (createLogger {|
         Winston.level := Some minLevel;
         defaultMeta := [("service", name)];
         format := combine [timestamp; json_format];
         transports := [
           Console {| console_format := combine [colorize; simple] |};
           ElasticsearchTransport {|
             es_level := minLevel; client := c; indexPrefix := "logs";
             indexSuffixPattern := "YYYY.MM.DD"; source := name;
             bufferLimit := 100; flushInterval := 500 |} ] |}) lvl msg
    = if match severity lvl with
         | Some k => (k <=? m)%nat
         | None => false
         end
      then [ (Console {| console_format := combine [colorize; simple] |},
              mkLogRecord lvl msg [("service", name)]);
             (ElasticsearchTransport {|
                es_level := minLevel; client := c; indexPrefix := "logs";
                indexSuffixPattern := "YYYY.MM.DD"; source := name;
                bufferLimit := 100; flushInterval := 500 |},
              mkLogRecord lvl msg [("service", name)]) ]
      else []).
  { intros lvl msg. unfold deliver, sink_level, passes.
    cbn [options transports Winston.level defaultMeta List.filter map
         own_level es_level].
    rewrite Hm.
    destruct (severity lvl) as [k|]; [|reflexivity].
    destruct (k <=? m)%nat; reflexivity. }
  split.
  { intros lvl msg t rec. rewrite Hdeliver.
    destruct (severity lvl) as [k|]; [|contradiction].
    destruct (k <=? m)%nat; [|contradiction].
    intros [[= <- <-] | [[= <- <-] | []]]; repeat split; reflexivity. }
  split.
  { intros lvl msg k Hk Hlt. rewrite Hdeliver, Hk.
    destruct (Nat.leb_spec k m); [lia | reflexivity]. }
  { intros lvl msg k Hk Hle. rewrite Hdeliver, Hk.
    destruct (Nat.leb_spec k m); [reflexivity | lia]. }
Qed.

Lemma logger_tags_and_gates_witness :
  let out := run (winstonLogger "http://localhost:9200" "orders" (Some "warn"))
                 Sim.empty_cluster in
  exists lg,
    out.1.1 = Ok lg
    /\ defaultMeta (options lg) = [("service", "orders")]
    /\ deliver npm_levels lg "info" "cache miss" = []
    /\ map fst (deliver npm_levels lg "error" "payment failed")
       = transports (options lg).
Proof.
  intros out.
  destruct (logger_tags_and_gates npm_levels "http://localhost:9200" "orders"
              "warn" 1 Sim.empty_cluster _ _ _ eq_refl ltac:(discriminate)
              (triple_eta out)) as [Hret Hcfg].
  destruct (Hret _ eq_refl) as [lg Hlg]. exists lg.
  destruct (Hcfg lg Hlg) as (Hmeta & _ & _ & _ & Hbelow & Habove).
  split; [exact Hlg|]. split; [exact Hmeta|]. split.
  - apply (Hbelow "info" "cache miss" 2%nat); [reflexivity | lia].
  - apply (Habove "error" "payment failed" 0%nat); [reflexivity | lia].
Defined.

(** ** The reference backend, state by state *)

(** A cluster that holds the policy, the template and the index of the day
    and has no fault answers every check of a run with "present", and the
    run leaves it as it was. *)
Lemma Sim_ready_run (s : Sim.Cluster) (node : string) :
  node <> "" ->
  (forall op, Sim.fault s op = None) ->
  is_Some (Sim.policies s !! "logs_policy") ->
  is_Some (Sim.templates s !! "logs_template") ->
  indexName (Sim.clock s) ∈ Sim.indices s ->
  exists tr,
    run (checkElasticLoggingSetup node) s = (Ok true, s, tr)
    /\ forallb sees_ready tr = true
    /\ List.filter is_create tr = [].
Proof.
  intros Hnode Hfault [p Hp] Ht Hi.
  unfold_run.
  cbn [new_Client cluster_health ilm_getLifecycle indices_existsIndexTemplate
       indices_exists new_Date Sim.backend].
  unfold Sim.construct, Sim.health, Sim.getLifecycle, Sim.existsIndexTemplate,
    Sim.exists_, Sim.round_trip.
  destruct (String.eqb_spec node ""); [contradiction|].
  repeat (first [ rewrite Hfault | rewrite Hp
                | rewrite (bool_decide_eq_true_2 _ Ht)
                | rewrite (bool_decide_eq_true_2 _ Hi) ];
          cbn beta iota zeta delta [negb]).
  eexists. split; [reflexivity|]. split; reflexivity.
Qed.

(** A cluster that holds nothing and has no fault ends a run holding
    exactly the policy, the template and the index of the day. *)
Lemma Sim_empty_run (s : Sim.Cluster) (node : string) :
  node <> "" ->
  (forall op, Sim.fault s op = None) ->
  Sim.policies s = ∅ -> Sim.templates s = ∅ -> Sim.indices s = ∅ ->
  exists tr,
    run (checkElasticLoggingSetup node) s
    = (Ok true,
       Sim.mkCluster {[ "logs_policy" := logs_policy_body ]}
                     {[ "logs_template" := logs_template_body ]}
                     {[ indexName (Sim.clock s) ]}
                     (Sim.health_status s) (Sim.clock s) (Sim.fault s),
       tr)
    /\ forallb sees_empty tr = true.
Proof.
  intros Hnode Hfault Hp Ht Hi.
  unfold_run.
  cbn [new_Client cluster_health ilm_getLifecycle ilm_putLifecycle
       indices_existsIndexTemplate indices_putIndexTemplate
       indices_exists indices_create new_Date Sim.backend].
  unfold Sim.construct, Sim.health, Sim.getLifecycle, Sim.putLifecycle,
    Sim.existsIndexTemplate, Sim.putIndexTemplate, Sim.exists_, Sim.create,
    Sim.round_trip.
  destruct (String.eqb_spec node ""); [contradiction|].
  repeat (first [ rewrite Hfault | rewrite Hp | rewrite Ht | rewrite Hi
                | rewrite lookup_empty
                | rewrite bool_decide_eq_false_2
                    by first [ set_solver | intros [? ?]; discriminate ] ];
          cbn beta iota zeta
              delta [negb Sim.fault Sim.policies Sim.templates Sim.indices
                     Sim.clock Sim.health_status]).
  eexists. split.
  - rewrite !insert_empty, (right_id_L ∅ (∪)). reflexivity.
  - reflexivity.
Qed.

(** ** Further properties of [checkElasticLoggingSetup] *)

(** Greedy search for a subsequence. *)
Ltac subsequence :=
  repeat first [ apply sublist_nil | apply sublist_skip | apply sublist_cons ].

(** X1. The backend calls of a run are a subsequence of health,
    getLifecycle, putLifecycle, existsIndexTemplate, putIndexTemplate,
    exists, create: each operation is called at most once, never out of
    that order, and a run makes at most seven backend calls (there is no
    retry). *)
Theorem setup_calls_in_order {W} `{EsBackend W} (node : string) (w : W) r w' tr :
  run (checkElasticLoggingSetup node) w = (r, w', tr) ->
  calls tr `sublist_of` setup_order
  /\ NoDup (calls tr)
  /\ (length (calls tr) <= 7)%nat.
Proof.
  intros Hrun.
  assert (Hsub : calls tr `sublist_of` setup_order).
  { revert r w' tr Hrun. all_paths; on_every_path;
      unfold calls, setup_order; cbn [omap list_omap call_of]; subsequence. }
  split; [exact Hsub|]. split.
  - eapply sublist_NoDup; [|exact Hsub].
    unfold setup_order. repeat (apply NoDup_cons; split;
      [rewrite ?elem_of_cons, elem_of_nil; intuition discriminate|]).
    apply NoDup_nil_2.
  - apply sublist_length in Hsub. exact Hsub.
Qed.

Lemma setup_calls_in_order_witness :
  let out := run (checkElasticLoggingSetup "http://localhost:9200")
                 Sim.empty_cluster in
  calls out.2 = setup_order
  /\ calls out.2 `sublist_of` setup_order
  /\ NoDup (calls out.2).
Proof.
  intros out.
  destruct (setup_calls_in_order "http://localhost:9200" Sim.empty_cluster
              _ _ _ (triple_eta out)) as (Hsub & Hnodup & _).
  split; [vm_compute; reflexivity|]. split; [exact Hsub | exact Hnodup].
Defined.

(** X2. A resource that a check reports present is never written: after a
    successful policy fetch the run has no [putLifecycle], after a template
    check answering [true] no [putIndexTemplate], and after an index check
    answering [true] no [create]. *)
Theorem setup_never_overwrites {W} `{EsBackend W} (node : string) (w : W) r w' tr :
  run (checkElasticLoggingSetup node) w = (r, w', tr) ->
  (forall n p, In (EvGetLifecycle n (Ok p)) tr ->
     forall n' b r', ~ In (EvPutLifecycle n' b r') tr)
  /\ (forall n, In (EvExistsIndexTemplate n (Ok true)) tr ->
        forall n' b r', ~ In (EvPutIndexTemplate n' b r') tr)
  /\ (forall i, In (EvIndicesExists i (Ok true)) tr ->
        forall i' r', ~ In (EvIndicesCreate i' r') tr).
Proof.
  revert r w' tr. all_paths; on_every_path; unfold not; close_path.
Qed.

Lemma setup_never_overwrites_witness :
  let out := run (checkElasticLoggingSetup "http://localhost:9200")
                 Sim.ready_cluster in
  In (EvGetLifecycle "logs_policy" (Ok logs_policy_body)) out.2
  /\ forall n b r, ~ In (EvPutLifecycle n b r) out.2.
Proof.
  intros out.
  assert (Hin : In (EvGetLifecycle "logs_policy" (Ok logs_policy_body)) out.2)
    by (vm_compute; auto 10).
  destruct (setup_never_overwrites "http://localhost:9200" Sim.ready_cluster
              _ _ _ (triple_eta out)) as (Hpolicy & _).
  split; [exact Hin | exact (Hpolicy _ _ Hin)].
Defined.

(** X3. The function returns [true] exactly when the index step settled:
    the index check answered [true], or the [create] succeeded. When it
    returns [true], the policy was fetched or put successfully, the template
    was reported present or put successfully, and the index that was found
    or created is the one named after the date the run read. *)
Theorem setup_true_iff_index_settled {W} `{EsBackend W}
  (node : string) (w : W) r w' tr :
  run (checkElasticLoggingSetup node) w = (r, w', tr) ->
  (r = Ok true <->
   exists i, In (EvIndicesExists i (Ok true)) tr
             \/ In (EvIndicesCreate i (Ok tt)) tr)
  /\ (r = Ok true ->
      ((exists p, In (EvGetLifecycle "logs_policy" (Ok p)) tr)
       \/ In (EvPutLifecycle "logs_policy" logs_policy_body (Ok tt)) tr)
      /\ (In (EvExistsIndexTemplate "logs_template" (Ok true)) tr
          \/ In (EvPutIndexTemplate "logs_template" logs_template_body (Ok tt)) tr)
      /\ exists today,
           In (EvNewDate today) tr
           /\ (In (EvIndicesExists (indexName today) (Ok true)) tr
               \/ In (EvIndicesCreate (indexName today) (Ok tt)) tr)).
Proof.
  revert r w' tr. all_paths; on_every_path.
  all: split; [split|].
  all: try (intros Hx; discriminate Hx).
  all: try (intros [i [Hx | Hx]]; which_event Hx; fail).
  all: try (intros _; eexists; cbn [In]; eauto 20; fail).
  all: try (intros _; reflexivity).
  all: intros _; cbn [In]; split; [eauto 20|]; split; [eauto 20|];
    eexists; split; eauto 20.
Qed.

Lemma setup_true_iff_index_settled_witness :
  let out := run (checkElasticLoggingSetup "http://localhost:9200")
                 Sim.empty_cluster in
  In (EvIndicesCreate "logs-2024.03.05" (Ok tt)) out.2
  /\ out.1.1 = Ok true.
Proof.
  intros out.
  assert (Hin : In (EvIndicesCreate "logs-2024.03.05" (Ok tt)) out.2)
    by (vm_compute; auto 20).
  destruct (setup_true_iff_index_settled "http://localhost:9200"
              Sim.empty_cluster _ _ _ (triple_eta out)) as ([_ Htrue] & _).
  split; [exact Hin|]. apply Htrue. eauto.
Defined.


(** X4. The steps are gated on one another: any backend call other than a
    rejected health query comes after a successful health query; the
    template step is reached only after the policy was fetched or put
    successfully; the index step only after the template was reported
    present or put successfully. *)
Theorem setup_steps_depend {W} `{EsBackend W}
  (node : string) (w : W) r w' tr :
  run (checkElasticLoggingSetup node) w = (r, w', tr) ->
  (forall ev, In ev tr -> is_backend_call ev = true ->
     (exists h, In (EvClusterHealth (Ok h)) tr)
     \/ exists e, ev = EvClusterHealth (Throw e))
  /\ (forall ev, In ev tr ->
        call_of ev = Some CallExistsIndexTemplate
        \/ call_of ev = Some CallPutIndexTemplate ->
        (exists p, In (EvGetLifecycle "logs_policy" (Ok p)) tr)
        \/ In (EvPutLifecycle "logs_policy" logs_policy_body (Ok tt)) tr)
  /\ (forall ev, In ev tr ->
        call_of ev = Some CallExists \/ call_of ev = Some CallCreate ->
        In (EvExistsIndexTemplate "logs_template" (Ok true)) tr
        \/ In (EvPutIndexTemplate "logs_template" logs_template_body (Ok tt)) tr).
Proof.
  revert r w' tr. all_paths; on_every_path.
  all: split; [|split].
  all: intros ev Hin Hk; which_event Hin; cbn [is_backend_call call_of] in Hk;
    try discriminate Hk; try (destruct Hk as [Hk|Hk]; discriminate Hk);
    cbn [In]; eauto 20.
Qed.

Lemma setup_steps_depend_witness :
  let out := run (checkElasticLoggingSetup "http://localhost:9200")
                 Sim.empty_cluster in
  In (EvIndicesCreate "logs-2024.03.05" (Ok tt)) out.2
  /\ (In (EvExistsIndexTemplate "logs_template" (Ok true)) out.2
      \/ In (EvPutIndexTemplate "logs_template" logs_template_body (Ok tt))
            out.2).
Proof.
  intros out.
  assert (Hin : In (EvIndicesCreate "logs-2024.03.05" (Ok tt)) out.2)
    by (vm_compute; auto 20).
  destruct (setup_steps_depend "http://localhost:9200" Sim.empty_cluster
              _ _ _ (triple_eta out)) as (_ & _ & Hindex).
  split; [exact Hin|]. exact (Hindex _ Hin (or_intror eq_refl)).
Defined.


(** X5. A run names nothing but its own resources: the client is built for
    the given address, policy calls name [logs_policy] (and put the policy
    body of the source), template calls name [logs_template] (and put the
    template body of the source), and the index checked and the index
    created are both [indexName] of the one date the run read from the
    clock. The run logs nothing through a winston handle. *)
Theorem setup_touches_only_its_resources {W} `{EsBackend W}
  (node : string) (w : W) r w' tr :
  run (checkElasticLoggingSetup node) w = (r, w', tr) ->
  forall ev, In ev tr ->
    match ev with
    | EvNewClient n _ => n = node
    | EvGetLifecycle n _ => n = "logs_policy"
    | EvPutLifecycle n b _ => n = "logs_policy" /\ b = logs_policy_body
    | EvExistsIndexTemplate n _ => n = "logs_template"
    | EvPutIndexTemplate n b _ => n = "logs_template" /\ b = logs_template_body
    | EvIndicesExists i _ | EvIndicesCreate i _ =>
        exists today, List.filter
                        (fun e => match e with EvNewDate _ => true | _ => false end)
                        tr = [EvNewDate today]
                      /\ i = indexName today
    | EvLoggerLog _ _ _ => False
    | _ => True
    end.
Proof.
  revert r w' tr. all_paths; on_every_path.
  all: intros ev Hin; which_event Hin; cbn [List.filter]; eauto.
Qed.

Lemma setup_touches_only_its_resources_witness :
  let out := run (checkElasticLoggingSetup "http://localhost:9200")
                 Sim.empty_cluster in
  In (EvIndicesCreate "logs-2024.03.05" (Ok tt)) out.2
  /\ exists today,
       List.filter (fun e => match e with EvNewDate _ => true | _ => false end)
                   out.2 = [EvNewDate today]
       /\ "logs-2024.03.05" = indexName today.
Proof.
  intros out.
  assert (Hin : In (EvIndicesCreate "logs-2024.03.05" (Ok tt)) out.2)
    by (vm_compute; auto 20).
  split; [exact Hin|].
  exact (setup_touches_only_its_resources "http://localhost:9200"
           Sim.empty_cluster _ _ _ (triple_eta out) _ Hin).
Defined.


(** X6. The run stops at the first failure that is not absorbed: that call
    is immediately followed by the diagnostic for its error, which ends the
    run, and every failure before it was an absorbed one (a policy fetch or
    a template check). *)
Theorem setup_stops_at_first_failure {W} `{EsBackend W}
  (node : string) (w : W) r w' tr :
  run (checkElasticLoggingSetup node) w = (r, w', tr) ->
  forall ev e, In ev tr -> failed ev = Some e -> absorbed ev = false ->
    exists before,
      tr = before ++ [ev; EvConsoleError setup_failed_msg e]
      /\ forallb (fun ev' => match failed ev' with
                             | Some _ => absorbed ev'
                             | None => true
                             end) before = true.
Proof.
  revert r w' tr. all_paths; on_every_path.
  all: intros ev err Hin Hf Ha; which_event Hin; compute_log; simplify_eq.
  all: unfold setup_failed_msg.
  all: match goal with
       | |- exists before, ?l = @?rhs before /\ @?rest before =>
           exists (removelast (removelast l)); cbn [removelast app];
           split; reflexivity
       end.
Qed.

Lemma setup_stops_at_first_failure_witness :
  let out := run (checkElasticLoggingSetup "http://localhost:9200")
                 Sim.ready_cluster_get_times_out in
  exists before,
    out.2 = before
            ++ [EvPutLifecycle "logs_policy" logs_policy_body
                  (Throw Sim.already_exists);
                EvConsoleError setup_failed_msg Sim.already_exists]
    /\ In (EvGetLifecycle "logs_policy" (Throw Sim.timeout)) before.
Proof.
  intros out.
  assert (Hin : In (EvPutLifecycle "logs_policy" logs_policy_body
                      (Throw Sim.already_exists)) out.2)
    by (vm_compute; auto 20).
  destruct (setup_stops_at_first_failure "http://localhost:9200"
              Sim.ready_cluster_get_times_out _ _ _ (triple_eta out)
              _ _ Hin eq_refl eq_refl) as (before & Heq & _).
  exists before. split; [exact Heq|].
  assert (Hlog : out.2
            = [EvNewClient "http://localhost:9200"
                 (Ok (mkClient "http://localhost:9200"));
               EvClusterHealth (Ok (mkHealth "green"));
               EvConsoleLog "Elasticsearch health for logging: green";
               EvGetLifecycle "logs_policy" (Throw Sim.timeout);
               EvConsoleLog "Creating ILM policy for logs..."]
              ++ [EvPutLifecycle "logs_policy" logs_policy_body
                    (Throw Sim.already_exists);
                  EvConsoleError setup_failed_msg Sim.already_exists])
    by (vm_compute; reflexivity).
  rewrite Hlog in Heq. apply app_inv_tail in Heq as <-. cbn [In]. auto 10.
Defined.

(** Case analysis on [In (EvConsoleLog msg) log], comparing the messages. *)
Ltac which_line Hin :=
  cbn [In] in Hin;
  repeat match type of Hin with
         | _ \/ _ =>
             destruct Hin as [Hin|Hin];
             [try discriminate Hin;
              try (cbv [String.append] in Hin; discriminate Hin)|]
         end;
  try contradiction; try (cbv [String.append] in Hin); simplify_eq.

(** X7. The progress lines on the console say what happened: "Using
    existing ILM policy" is logged exactly when the fetch succeeded, "ILM
    policy created successfully" exactly when [putLifecycle] succeeded,
    "Index template created successfully" exactly when [putIndexTemplate]
    succeeded, "Created Elasticsearch index: i" exactly when the [create] of
    [i] succeeded, and the health status is logged whenever the health
    query succeeded. *)
Theorem setup_log_lines_truthful {W} `{EsBackend W}
  (node : string) (w : W) r w' tr :
  run (checkElasticLoggingSetup node) w = (r, w', tr) ->
  (In (EvConsoleLog "Using existing ILM policy for logs") tr <->
   exists p, In (EvGetLifecycle "logs_policy" (Ok p)) tr)
  /\ (In (EvConsoleLog "ILM policy created successfully") tr <->
      In (EvPutLifecycle "logs_policy" logs_policy_body (Ok tt)) tr)
  /\ (In (EvConsoleLog "Index template created successfully") tr <->
      In (EvPutIndexTemplate "logs_template" logs_template_body (Ok tt)) tr)
  /\ (forall i,
        In (EvConsoleLog ("Created Elasticsearch index: " +:+ i)) tr <->
        In (EvIndicesCreate i (Ok tt)) tr)
  /\ (forall h,
        In (EvClusterHealth (Ok h)) tr ->
        In (EvConsoleLog ("Elasticsearch health for logging: " +:+ status h)) tr).
Proof.
  revert r w' tr. all_paths; on_every_path.
  all: repeat match goal with
       | |- _ /\ _ => split
       | |- _ <-> _ => split
       | |- forall _ : string, _ => intro
       | |- forall _ : HealthResponse, _ => intro
       end.
  all: try (intros [p0 Hx]; which_event Hx; cbn [In]; auto 20; fail).
  all: try (intros Hx; which_event Hx; cbn [In]; auto 20; fail).
  all: intros Hx; which_line Hx; cbn [In]; eauto 20.
Qed.

Lemma setup_log_lines_truthful_witness :
  let out := run (checkElasticLoggingSetup "http://localhost:9200")
                 Sim.empty_cluster in
  In (EvIndicesCreate "logs-2024.03.05" (Ok tt)) out.2
  /\ In (EvConsoleLog "Created Elasticsearch index: logs-2024.03.05") out.2.
Proof.
  intros out.
  assert (Hin : In (EvIndicesCreate "logs-2024.03.05" (Ok tt)) out.2)
    by (vm_compute; auto 20).
  destruct (setup_log_lines_truthful "http://localhost:9200" Sim.empty_cluster
              _ _ _ (triple_eta out)) as (_ & _ & _ & Hcreated & _).
  split; [exact Hin|]. exact (proj2 (Hcreated "logs-2024.03.05") Hin).
Defined.

(** ** Further properties of [winstonLogger] *)

(** X8. When the client constructor throws for the address, [winstonLogger]
    throws that error (it has no handler) having done nothing else, while
    [checkElasticLoggingSetup] returns [false] after logging the diagnostic,
    without a backend call. Neither changes the backend. *)
Theorem constructor_failure {W} `{EsBackend W}
  (node name : string) (level : jsstring) (w : W) (e : error) :
  new_Client node = Throw e ->
  run (winstonLogger node name level) w
    = (Throw e, w, [EvNewClient node (Throw e)])
  /\ run (checkElasticLoggingSetup node) w
     = (Ok false, w,
        [EvNewClient node (Throw e); EvConsoleError setup_failed_msg e]).
Proof.
  intros He. unfold_run. rewrite He. split; reflexivity.
Qed.

Lemma constructor_failure_witness :
  run (winstonLogger "" "orders" (Some "info")) Sim.empty_cluster
    = (Throw Sim.invalid_url, Sim.empty_cluster,
       [EvNewClient "" (Throw Sim.invalid_url)])
  /\ run (checkElasticLoggingSetup "") Sim.empty_cluster
     = (Ok false, Sim.empty_cluster,
        [EvNewClient "" (Throw Sim.invalid_url);
         EvConsoleError setup_failed_msg Sim.invalid_url]).
Proof.
  exact (constructor_failure "" "orders" (Some "info") Sim.empty_cluster
           Sim.invalid_url eq_refl).
Defined.

(** X9. The handle [winstonLogger] returns does not depend on the date:
    the suffix it computes from the clock (lines 16-20) is never used, so
    the same arguments give the same handle, with the same options,
    whatever the clock says. And a call that returns a handle logs exactly
    one record through that handle, the line "Logger initialized for
    service: name" at level [info]. *)
Theorem winstonLogger_handle_ignores_date {W} `{EsBackend W}
  (node name : string) (level : jsstring) (w : W) r w' tr :
  run (winstonLogger node name level) w = (r, w', tr) ->
  (forall w2 : W, (run (winstonLogger node name level) w2).1.1 = r)
  /\ (forall lg, r = Ok lg ->
        List.filter is_logger_log tr
        = [EvLoggerLog lg "info" ("Logger initialized for service: " +:+ name)]).
Proof.
  rewrite winstonLogger_run.
  destruct (new_Client node) as [c|e] eqn:Hc; intros [= <- <- <-].
  - split.
    + intros w2. rewrite winstonLogger_run, Hc. reflexivity.
    + intros lg [= <-]. reflexivity.
  - split.
    + intros w2. rewrite winstonLogger_run, Hc. reflexivity.
    + discriminate.
Qed.

Lemma winstonLogger_handle_ignores_date_witness :
  let out := run (winstonLogger "http://localhost:9200" "orders" (Some "info"))
                 Sim.empty_cluster in
  In (EvNewDate Sim.march5) out.2
  /\ (run (winstonLogger "http://localhost:9200" "orders" (Some "info"))
          (Sim.mkCluster ∅ ∅ ∅ "green" (mkDate 2031 11 31 23 59 59 999)
                         Sim.no_fault)).1.1
     = out.1.1.
Proof.
  intros out.
  destruct (winstonLogger_handle_ignores_date "http://localhost:9200"
              "orders" (Some "info") Sim.empty_cluster _ _ _ (triple_eta out))
    as (Hind & _).
  split; [vm_compute; auto|]. apply Hind.
Defined.



(** ** Index names of distinct days *)

Lemma String_inj (a b : Z) : String_ a = String_ b -> a = b.
Proof.
  unfold String_. intros Heq.
  apply DecimalZ.to_int_inj.
  assert (Hnn : forall z, Z.to_int z <> Decimal.Pos Decimal.Nil
                          /\ Z.to_int z <> Decimal.Neg Decimal.Nil).
  { intros [|p|p]; cbn; split; try discriminate;
      intros [= Hp]; exact (DecimalPos.Unsigned.to_uint_nonnil p Hp). }
  apply (f_equal NilZero.int_of_string) in Heq.
  rewrite !NilZero.isi in Heq by apply Hnn.
  congruence.
Qed.

Lemma length_append (s t : string) :
  String.length (s +:+ t) = (String.length s + String.length t)%nat.
Proof.
  induction s as [|c s IH]; [reflexivity|].
  change (S (String.length (s +:+ t))
          = S (String.length s + String.length t)%nat).
  f_equal. exact IH.
Qed.

Lemma append_inj_same_tail_length (s1 s2 t1 t2 : string) :
  String.length t1 = String.length t2 ->
  s1 +:+ t1 = s2 +:+ t2 -> s1 = s2 /\ t1 = t2.
Proof.
  revert s2. induction s1 as [|c s1 IH]; intros [|c2 s2] Hlen Heq.
  - auto.
  - apply (f_equal String.length) in Heq.
    change ("" +:+ t1) with t1 in Heq.
    rewrite length_append in Heq. cbn [String.length] in Heq. lia.
  - apply (f_equal String.length) in Heq.
    change ("" +:+ t2) with t2 in Heq.
    rewrite length_append in Heq. cbn [String.length] in Heq. lia.
  - change (String c (s1 +:+ t1) = String c2 (s2 +:+ t2)) in Heq.
    injection Heq as -> Heq. destruct (IH s2 Hlen Heq) as [-> ->]. auto.
Qed.

Lemma append_inj_l (p s t : string) : p +:+ s = p +:+ t -> s = t.
Proof.
  induction p as [|c p IH]; intros Heq; [exact Heq|].
  change (String c (p +:+ s) = String c (p +:+ t)) in Heq.
  injection Heq as Heq. auto.
Qed.

Lemma digit_inj (a b : Z) : 0 <= a < 10 -> 0 <= b < 10 -> digit a = digit b -> a = b.
Proof.
  unfold digit. intros Ha Hb Heq.
  apply (f_equal Ascii.nat_of_ascii) in Heq.
  rewrite !Ascii.nat_ascii_embedding in Heq by lia. lia.
Qed.

Lemma two_digits_inj (a b : Z) :
  0 <= a < 100 -> 0 <= b < 100 -> two_digits a = two_digits b -> a = b.
Proof.
  unfold two_digits. intros Ha Hb [= Hhi Hlo].
  apply digit_inj in Hhi; [|split; [apply Z.div_pos; lia | apply Z.div_lt_upper_bound; lia]..].
  apply digit_inj in Hlo; [|apply Z.mod_pos_bound; lia..].
  rewrite (Z.div_mod a 10), (Z.div_mod b 10) by lia. lia.
Qed.

(** X11. Two dates in range get the same index name only when they are the
    same calendar day: distinct days never share an index. *)
Theorem indexName_injective (d1 d2 : Date) :
  valid_date d1 -> valid_date d2 ->
  indexName d1 = indexName d2 ->
  getFullYear d1 = getFullYear d2
  /\ getMonth d1 = getMonth d2
  /\ getDate d1 = getDate d2.
Proof.
  intros [Hm1 Hd1] [Hm2 Hd2]. unfold indexName. cbv zeta.
  rewrite !padStart_two_digits by lia.
  intros Heq. apply append_inj_l in Heq.
  apply append_inj_same_tail_length in Heq as [Hy Heq]; [|reflexivity].
  apply String_inj in Hy.
  unfold two_digits in Heq. cbv [String.append] in Heq.
  injection Heq as Hm_hi Hm_lo Hd_hi Hd_lo.
  assert (Hm : getMonth d1 + 1 = getMonth d2 + 1).
  { apply two_digits_inj; [lia | lia |]. unfold two_digits. congruence. }
  assert (Hd : getDate d1 = getDate d2).
  { apply two_digits_inj; [lia | lia |]. unfold two_digits. congruence. }
  repeat split; [exact Hy | lia | exact Hd].
Qed.

Lemma indexName_injective_witness :
  indexName Sim.march5 = indexName (mkDate 2024 2 5 23 59 59 999)
  /\ getDate Sim.march5 = getDate (mkDate 2024 2 5 23 59 59 999).
Proof.
  split; [reflexivity|].
  refine (proj2 (proj2 (indexName_injective Sim.march5
                          (mkDate 2024 2 5 23 59 59 999) _ _ eq_refl)));
    unfold valid_date; cbn; lia.
Defined.
